(** * Mounting a React button inside a server-rendered page

    A shallow embedding of the three source files of the repository:

    - [components/Button.jsx]: the presentational [Button] component;
    - [main.jsx]: the listener registered for ["DOMContentLoaded"] that
      looks up the anchor element, creates a rendering root and renders
      the button into it;
    - [vite.config.js]: the object literal handed to [defineConfig].

    The host page (DOM tree, console, event listeners) and the imported
    packages (react-dom, the icon package, the CSS module) are not part of
    the repository.  The page is modelled by a small explicit state, and
    what the packages do is kept as the fields of an environment record
    [Env], so that a statement below holds for whatever they do unless it
    names what it takes from them. *)

From Stdlib Require Import String List ZArith Bool Arith Lia.
From Stdlib Require Import DecimalString.
Import ListNotations.
Open Scope string_scope.
Open Scope list_scope.

Set Warnings "-register-all".

(** ** JavaScript values carried by props and JSX expression children *)

Inductive jsval :=
| VUndefined
| VStr (s : string)
| VNum (z : Z).

(** A props object: property names with their values, first binding wins. *)
Definition props := list (string * jsval).

Definition get_prop (name : string) (p : props) : jsval :=
  match find (fun kv => String.eqb (fst kv) name) p with
  | Some kv => snd kv
  | None => VUndefined
  end.

(** ** The DOM tree of the host document *)

Module Dom.

Inductive node :=
| Text (data : string)
| Element (tagName : string) (attrs : list (string * string)) (childNodes : list node).

(** An element handle is the position of the element in the tree: the child
    indices from the document element down to it. *)
Definition handle := list nat.

Definition getAttribute (name : string) (n : node) : option string :=
  match n with
  | Text _ => None
  | Element _ attrs _ =>
      match find (fun kv => String.eqb (fst kv) name) attrs with
      | Some kv => Some (snd kv)
      | None => None
      end
  end.

Definition has_id (id : string) (n : node) : bool :=
  match getAttribute "id" n with
  | Some v => String.eqb v id
  | None => false
  end.

Section FirstMatch.

Variable f : node -> option handle.

(** The first node of [l], counted from [i], on which [f] finds something. *)
Fixpoint first_match (i : nat) (l : list node) : option handle :=
  match l with
  | [] => None
  | c :: l' =>
      match f c with
      | Some p => Some (i :: p)
      | None => first_match (S i) l'
      end
  end.

End FirstMatch.

(** [document.getElementById]: the first element in tree order whose [id]
    attribute is the given string, [None] standing for [null]. *)
Fixpoint getElementById (id : string) (n : node) : option handle :=
  if has_id id n then Some []
  else
    match n with
    | Text _ => None
    | Element _ _ ch => first_match (getElementById id) 0 ch
    end.

Fixpoint node_at (p : handle) (n : node) : option node :=
  match p with
  | [] => Some n
  | i :: p' =>
      match n with
      | Text _ => None
      | Element _ _ ch =>
          match nth_error ch i with
          | Some c => node_at p' c
          | None => None
          end
      end
  end.

Definition childNodes_at (p : handle) (n : node) : option (list node) :=
  match node_at p n with
  | Some (Element _ _ ch) => Some ch
  | _ => None
  end.

Fixpoint update_nth {A : Type} (i : nat) (f : A -> A) (l : list A) : list A :=
  match l, i with
  | [], _ => []
  | x :: l', O => f x :: l'
  | x :: l', S i' => x :: update_nth i' f l'
  end.

(** Replace the children of the element at [p]; a handle that leads nowhere
    leaves the tree as it is. *)
Fixpoint replaceChildren (p : handle) (new : list node) (n : node) : node :=
  match n with
  | Text _ => n
  | Element t a ch =>
      match p with
      | [] => Element t a new
      | i :: p' => Element t a (update_nth i (replaceChildren p' new) ch)
      end
  end.

Definition is_tag (t : string) (n : node) : bool :=
  match n with
  | Text _ => false
  | Element t' _ _ => String.eqb t' t
  end.

(** The text of a subtree, as [Node.textContent] gives it. *)
Fixpoint textContent (n : node) : string :=
  match n with
  | Text s => s
  | Element _ _ ch => String.concat "" (map textContent ch)
  end.

End Dom.

Import Dom.

(** ** React elements *)

(** What a JSX expression evaluates to.  [EComp name type p] is the element
    [<name {...p} />] of a function component [type]; [EExt] is an element
    of a component imported from a package, whose body is not in the
    repository. *)
Inductive element :=
| EValue (v : jsval)
| EHost (tag : string) (p : props) (children : list element)
| EExt (component : string) (p : props)
| EStrictMode (children : list element)
| EComp (name : string) (type : props -> element) (p : props).

(** The imported packages. *)
Record Env := {
  (** [styles.container] and [styles.text] of [Button.module.css] *)
  styles_container : string;
  styles_text : string;
  (** whether [ReactDOM.createRoot] hands back a usable root for a container *)
  root_created : handle -> bool;
  (** the DOM nodes an imported icon component renders for its props *)
  icon_dom : string -> props -> list node
}.

(** A rendering root, bound to its container. *)
Record ReactRoot := { container : handle }.

(** What the page records, in order. *)
Inductive action :=
| AListen (type : string)
| AFire (type : string)
| ALookup (id : string) (found : option handle)
| ACreateRoot (c : handle) (result : option ReactRoot)
| ARender (root : ReactRoot) (e : element)
| AError (msg : string).

Record World := {
  doc : node;
  console : list string;
  trace : list action
}.

(** Code that runs against the page. *)
Definition M (A : Type) : Type := World -> A * World.

Definition ret {A : Type} (a : A) : M A := fun w => (a, w).

Definition bind {A B : Type} (m : M A) (k : A -> M B) : M B :=
  fun w => let (a, w') := m w in k a w'.

Notation "x <- m ;; k" := (bind m (fun x => k))
  (at level 100, m at next level, right associativity).

Definition record (a : action) (w : World) : World :=
  {| doc := doc w; console := console w; trace := trace w ++ [a] |}.

Definition document_getElementById (id : string) : M (option handle) :=
  fun w => let r := getElementById id (doc w) in (r, record (ALookup id r) w).

Definition console_error (msg : string) : M unit :=
  fun w => (tt, {| doc := doc w;
                   console := console w ++ [msg];
                   trace := trace w ++ [AError msg] |}).

Definition string_of_Z (z : Z) : string := NilZero.string_of_int (Z.to_int z).

(** Props of a host element as DOM attributes; [className] is the [class]
    attribute, an undefined prop sets nothing. *)
Definition dom_attr (kv : string * jsval) : list (string * string) :=
  let name := if String.eqb (fst kv) "className" then "class" else fst kv in
  match snd kv with
  | VUndefined => []
  | VStr s => [(name, s)]
  | VNum z => [(name, string_of_Z z)]
  end.

Section Program.

Variable env : Env.

(** *** components/Button.jsx *)

Definition CaretLeft (p : props) : element := EExt "CaretLeft" p.
Definition CaretRight (p : props) : element := EExt "CaretRight" p.

Definition Button (p : props) : element :=
  let text := get_prop "text" p in
  EHost "button" [("className", VStr (styles_container env))]
    [ CaretLeft [("size", VNum 32)];
      EHost "span" [("className", VStr (styles_text env))] [EValue text];
      CaretRight [("size", VNum 32)] ].

(** *** The DOM a React element renders to *)

(** A string child becomes a text node holding it, except the empty string,
    for which no text node is made; an undefined child makes nothing. *)
Fixpoint to_dom (e : element) : list node :=
  match e with
  | EValue VUndefined => []
  | EValue (VStr s) =>
      match s with
      | EmptyString => []
      | String _ _ => [Text s]
      end
  | EValue (VNum z) => [Text (string_of_Z z)]
  | EHost tag p ch => [Element tag (flat_map dom_attr p) (flat_map to_dom ch)]
  | EExt c p => icon_dom env c p
  | EStrictMode ch => flat_map to_dom ch
  | EComp _ type p => to_dom (type p)
  end.

(** [ReactDOM.createRoot(container)].  The console of the model holds what
    the code of the page logs itself; the warnings of the library's
    development build are not part of it. *)
Definition ReactDOM_createRoot (c : handle) : M (option ReactRoot) :=
  fun w =>
    let r := if root_created env c then Some {| container := c |} else None in
    (r, record (ACreateRoot c r) w).

(** [root.render(element)]: the first render of a root makes the rendered
    nodes the children of its container.  The document of the model is the
    one the page settles in: the library commits the render after the handler
    has returned, and for a container that is [html], [head] or [body] it
    keeps the style, script and link children, which the model does not. *)
Definition root_render (root : ReactRoot) (e : element) : M unit :=
  fun w => (tt, {| doc := replaceChildren (container root) (to_dom e) (doc w);
                   console := console w;
                   trace := trace w ++ [ARender root e] |}).

(** *** main.jsx *)

Definition app : element :=
  EStrictMode [EComp "Button" Button [("text", VStr "Click me")]].

Definition handler : M unit :=
  entryPoint <- document_getElementById "react-root" ;;
  match entryPoint with
  | Some entryPoint =>
      root <- ReactDOM_createRoot entryPoint ;;
      match root with
      | None => console_error "Root for React not found"
      | Some root => root_render root app
      end
  | None => console_error "DOMContent not loaded :("
  end.

End Program.

(** ** The event listeners of the document *)

Record listener := {
  l_type : string;
  l_once : bool;
  l_callback : M unit
}.

Record Page := {
  world : World;
  listeners : list listener
}.

(** [document.addEventListener(type, callback, {once})] *)
Definition addEventListener (type : string) (callback : M unit) (once : bool)
    (pg : Page) : Page :=
  {| world := record (AListen type) (world pg);
     listeners := listeners pg ++
       [{| l_type := type; l_once := once; l_callback := callback |}] |}.

Definition listens (type : string) (l : listener) : bool :=
  String.eqb (l_type l) type.

(** An event of the given type fired on the document: every listener of the
    type runs, in registration order, each to its end before the next; a
    listener registered with [once] is dropped afterwards. *)
Definition dispatchEvent (type : string) (pg : Page) : Page :=
  {| world :=
       fold_left
         (fun w l => if listens type l then snd (l_callback l w) else w)
         (listeners pg) (record (AFire type) (world pg));
     listeners :=
       filter (fun l => negb (listens type l && l_once l)) (listeners pg) |}.

Definition DOMContentLoaded : string := "DOMContentLoaded".

(** The top level of main.jsx: one call of [addEventListener] with no
    options argument, so [once] has its default, [false]. *)
Definition main (env : Env) (pg : Page) : Page :=
  addEventListener DOMContentLoaded (handler env) false pg.

(** A page on which no other script has registered a listener, after the
    module has been evaluated. *)
Definition load (env : Env) (w : World) : Page :=
  main env {| world := w; listeners := [] |}.

(** The events fired on the document, in order. *)
Definition fire_all (types : list string) (pg : Page) : Page :=
  fold_left (fun pg t => dispatchEvent t pg) types pg.

(** The page after loading the module and firing the ready signal once. *)
Definition mount (env : Env) (w : World) : World :=
  world (dispatchEvent DOMContentLoaded (load env w)).

(** ** Reading the record of a run *)

(** The actions of the mount sequence: lookup, root creation, render, log. *)
Definition mount_action (a : action) : bool :=
  match a with
  | ALookup _ _ | ACreateRoot _ _ | ARender _ _ | AError _ => true
  | AListen _ | AFire _ => false
  end.

Definition is_lookup (a : action) : bool :=
  match a with ALookup _ _ => true | _ => false end.

Definition is_createRoot (a : action) : bool :=
  match a with ACreateRoot _ _ => true | _ => false end.


Definition is_ready (a : action) : bool :=
  match a with AFire t => String.eqb t DOMContentLoaded | _ => false end.

Definition count (f : action -> bool) (t : list action) : nat :=
  length (filter f t).

(** Every run of the handler starts with exactly one anchor lookup. *)
Definition mount_runs (t : list action) : nat := count is_lookup t.

Definition ready_count (types : list string) : nat :=
  length (filter (fun t => String.eqb t DOMContentLoaded) types).

(** The button elements among the children of the element at [p]. *)
Definition button_children (p : handle) (d : node) : nat :=
  match childNodes_at p d with
  | Some ch => length (filter (is_tag "button") ch)
  | None => 0
  end.

(** The three states of the bootstrap. *)
Inductive mount_state := Waiting | Mounted | FailedNoAnchor | FailedNoRoot.

(** The state the handler ends in, read from what it did last. *)
Definition final_state (t : list action) : mount_state :=
  match rev t with
  | ARender _ _ :: _ => Mounted
  | AError _ :: ACreateRoot _ _ :: _ => FailedNoRoot
  | AError _ :: _ => FailedNoAnchor
  | _ => Waiting
  end.

(** Host props that attach an event handler: the names [onClick],
    [onChange], ... *)
Definition is_handler_prop (kv : string * jsval) : bool :=
  String.prefix "on" (fst kv).

Fixpoint handler_props (e : element) : list string :=
  match e with
  | EValue _ => []
  | EHost _ p ch =>
      map fst (filter is_handler_prop p) ++ flat_map handler_props ch
  | EExt _ p => map fst (filter is_handler_prop p)
  | EStrictMode ch => flat_map handler_props ch
  | EComp _ type p => map fst (filter is_handler_prop p) ++ handler_props (type p)
  end.

(** ** vite.config.js *)

(** The object literal passed to [defineConfig]; [JCall] is a call of an
    imported function. *)
Inductive js :=
| JStr (s : string)
| JBool (b : bool)
| JArr (items : list js)
| JObj (fields : list (string * js))
| JCall (callee : string) (args : list js).

Definition field (name : string) (j : js) : option js :=
  match j with
  | JObj fields =>
      match find (fun kv => String.eqb (fst kv) name) fields with
      | Some kv => Some (snd kv)
      | None => None
      end
  | _ => None
  end.

Fixpoint get_path (p : list string) (j : js) : option js :=
  match p with
  | [] => Some j
  | name :: p' =>
      match field name j with
      | Some j' => get_path p' j'
      | None => None
      end
  end.

Definition vite_config : js :=
  JObj
    [ ("plugins", JArr [JCall "react" []]);
      ("build",
       JObj
         [ ("rollupOptions",
            JObj
              [ ("input", JStr "./src/main.jsx");
                ("output", JObj [("entryFileNames", JStr "react-build.js")]) ]);
           ("outDir", JStr "../static/build/");
           ("emptyOutDir", JBool true);
           ("manifest", JBool true) ]);
      ("server",
       JObj [ ("origin", JStr "http://localhost:8000"); ("cors", JBool true) ]) ].

(** ** Sample pages and packages *)

(** The page of the guide: a heading and the empty anchor [div]. *)
Definition page_with_anchor : node :=
  Element "html" []
    [ Element "head" [] [Element "title" [] [Text "Django + React Test"]];
      Element "body" []
        [ Element "h1" [] [Text "Hello from django"];
          Element "div" [("id", "react-root")] [] ] ].

(** The same page without the anchor. *)
Definition page_without_anchor : node :=
  Element "html" []
    [ Element "head" [] [Element "title" [] [Text "Django + React Test"]];
      Element "body" [] [Element "h1" [] [Text "Hello from django"]] ].

Definition fresh (d : node) : World :=
  {| doc := d; console := []; trace := [] |}.

Definition svg (name : string) (p : props) : list node :=
  [Element "svg" (("data-icon", name) :: flat_map dom_attr p) []].

(** Packages that behave as usual: a root is always created. *)
Definition env_ok : Env :=
  {| styles_container := "_container_1x2y3";
     styles_text := "_text_1x2y3";
     root_created := fun _ => true;
     icon_dom := svg |}.

(** Packages whose [createRoot] hands back nothing usable. *)
Definition env_no_root : Env :=
  {| styles_container := "_container_1x2y3";
     styles_text := "_text_1x2y3";
     root_created := fun _ => false;
     icon_dom := svg |}.

(** A page whose anchor already holds a placeholder. *)
Definition page_with_placeholder : node :=
  Element "html" []
    [ Element "body" []
        [ Element "div" [("id", "react-root")] [Text "Loading..."];
          Element "h1" [] [Text "Hello from django"] ] ].

(** The children of a host element. *)
Definition host_children (e : element) : list element :=
  match e with
  | EHost _ _ ch => ch
  | _ => []
  end.

(** ** What one run of the handler does to a document *)

Definition handler_doc (env : Env) (d : node) : node :=
  doc (snd (handler env (fresh d))).

Definition handler_logs (env : Env) (d : node) : list string :=
  console (snd (handler env (fresh d))).

Definition handler_actions (env : Env) (d : node) : list action :=
  trace (snd (handler env (fresh d))).

(** The listener main.jsx registers. *)
Definition handler_listener (env : Env) : listener :=
  {| l_type := DOMContentLoaded; l_once := false; l_callback := handler env |}.

(** One event fired on a page whose only listener is the handler. *)
Definition step (env : Env) (type : string) (w : World) : World :=
  if String.eqb type DOMContentLoaded
  then snd (handler env (record (AFire type) w))
  else record (AFire type) w.

Definition steps (env : Env) (types : list string) (w : World) : World :=
  fold_left (fun w t => step env t w) types w.

(** Every action of the mount sequence in [t] comes after a ready signal
    ([seen]: one was fired before [t]). *)
Fixpoint after_ready (seen : bool) (t : list action) : bool :=
  match t with
  | [] => true
  | a :: t' =>
      (negb (mount_action a) || seen) && after_ready (seen || is_ready a) t'
  end.

(** The subtrees handed to the DOM by the render calls of [t]. *)
Definition rendered (env : Env) (t : list action) : list (list node) :=
  flat_map (fun a => match a with
                     | ARender _ e => [to_dom env e]
                     | _ => []
                     end) t.

(** The ambient state the handler branches on. *)
Definition anchor_present (w : World) : bool :=
  match getElementById "react-root" (doc w) with
  | Some _ => true
  | None => false
  end.

Definition root_usable (env : Env) (w : World) : bool :=
  match getElementById "react-root" (doc w) with
  | Some p => root_created env p
  | None => false
  end.

(** The contract of react-dom's [createRoot]: for a container that is an
    element it returns a root, never a value that tests false. *)
Definition createRoot_returns_root (env : Env) : Prop :=
  forall c, root_created env c = true.

(** ** Positions in the document, relative to the anchor *)

(** [is_prefix p q]: the node at [q] is the node at [p] or lies below it. *)
Fixpoint is_prefix (p q : handle) : bool :=
  match p, q with
  | [], _ => true
  | _ :: _, [] => false
  | i :: p', j :: q' => Nat.eqb i j && is_prefix p' q'
  end.

(** The tag and the attributes of an element. *)
Definition label (n : node) : option (string * list (string * string)) :=
  match n with
  | Text _ => None
  | Element t a _ => Some (t, a)
  end.

(** ** The entry module evaluated more than once *)

(** The page after the top level of main.jsx has run [k] times. *)
Definition load_times (env : Env) (k : nat) (w : World) : Page :=
  Nat.iter k (main env) {| world := w; listeners := [] |}.

(** ** The DEBUG flag of the guide's settings.py *)

(** The process environment, [None] for a variable that is not set. *)
Definition environ := string -> option string.

(** [os.getenv(key, default)] *)
Definition os_getenv (e : environ) (key default : string) : string :=
  match e key with
  | Some v => v
  | None => default
  end.

(** [DEBUG = os.getenv("DJANGO_DEBUG", "True") == "True"] *)
Definition DEBUG (e : environ) : bool :=
  String.eqb (os_getenv e "DJANGO_DEBUG" "True") "True".

(** An environment with the one variable set. *)
Definition environ_with (key value : string) : environ :=
  fun k => if String.eqb k key then Some value else None.

(** * Properties *)

(** ** The DOM tree *)

Lemma node_induction (P : node -> Prop) :
  (forall s, P (Text s)) ->
  (forall t a ch, Forall P ch -> P (Element t a ch)) ->
  forall n, P n.
Proof.
  intros HT HE.
  fix IH 1.
  intros [s | t a ch].
  - apply HT.
  - apply HE. induction ch as [| c ch IHch]; constructor.
    + apply IH.
    + exact IHch.
Qed.

Lemma nth_error_update_nth {A : Type} (g : A -> A) (l : list A) (i : nat) :
  nth_error (update_nth i g l) i = option_map g (nth_error l i).
Proof.
  revert i. induction l as [| x l IH]; intros [| i]; simpl; auto.
Qed.

(** Where [first_match] finds something: at a child [j] places further on,
    on which [f] answers, every child before it answering nothing. *)
Lemma first_match_Some (f : node -> option handle) (l : list node) :
  forall i q, first_match f i l = Some q ->
  exists j c p, q = (i + j)%nat :: p /\ nth_error l j = Some c /\ f c = Some p.
Proof.
  induction l as [| c l IH]; intros i q H; simpl in H.
  - discriminate.
  - destruct (f c) as [p |] eqn:Hc.
    + inversion H; subst. exists 0%nat, c, p.
      rewrite Nat.add_0_r. auto.
    + apply IH in H. destruct H as (j & c' & p & -> & Hn & Hf).
      exists (S j), c', p. rewrite Nat.add_succ_r. auto.
Qed.

Lemma first_match_update (f : node -> option handle) (g : handle -> node -> node)
    (l : list node) :
  (forall c, In c l -> forall p, f c = Some p -> f (g p c) = Some p) ->
  forall i j p, first_match f i l = Some (j :: p) ->
  (i <= j)%nat /\ first_match f i (update_nth (j - i) (g p) l) = Some (j :: p).
Proof.
  induction l as [| c l IH]; intros Hg i j p H; simpl in H.
  - discriminate.
  - destruct (f c) as [q |] eqn:Hc.
    + inversion H; subst. split; [lia |].
      rewrite Nat.sub_diag. simpl.
      rewrite (Hg c (or_introl eq_refl) _ Hc). reflexivity.
    + apply IH in H; [| intros c' Hin; apply Hg; right; exact Hin].
      destruct H as [Hle H]. split; [lia |].
      replace (j - i)%nat with (S (j - S i)) by lia.
      simpl. rewrite Hc. exact H.
Qed.

(** The handle [getElementById] returns leads to an element carrying the id. *)
Lemma getElementById_sound (id : string) (n : node) :
  forall p, getElementById id n = Some p ->
  exists t a ch, node_at p n = Some (Element t a ch)
                 /\ has_id id (Element t a ch) = true.
Proof.
  induction n as [s | t a ch IH] using node_induction; intros p H.
  - discriminate.
  - simpl in H. destruct (has_id id (Element t a ch)) eqn:Hid.
    + inversion H; subst. exists t, a, ch. auto.
    + apply first_match_Some in H. destruct H as (j & c & q & -> & Hn & Hc).
      simpl. rewrite Hn.
      rewrite Forall_forall in IH.
      apply (IH c (nth_error_In _ _ Hn)). exact Hc.
Qed.

Lemma node_at_replaceChildren (new : list node) (p : handle) :
  forall n t a ch, node_at p n = Some (Element t a ch) ->
  node_at p (replaceChildren p new n) = Some (Element t a new).
Proof.
  induction p as [| i p IH]; intros n t a ch H.
  - simpl in H. inversion H; subst. reflexivity.
  - destruct n as [s | t' a' ch']; simpl in H; [discriminate |].
    simpl. rewrite nth_error_update_nth.
    destruct (nth_error ch' i) as [c |]; [| discriminate].
    simpl. eapply IH. exact H.
Qed.

(** After the children of the element found are replaced, they are the new
    ones. *)
Lemma childNodes_at_replaceChildren (id : string) (new : list node) (n : node) (p : handle) :
  getElementById id n = Some p ->
  childNodes_at p (replaceChildren p new n) = Some new.
Proof.
  intros H. apply getElementById_sound in H.
  destruct H as (t & a & ch & Hn & _).
  unfold childNodes_at. rewrite (node_at_replaceChildren new p n t a ch Hn).
  reflexivity.
Qed.

(** Replacing the children of the element found does not move it: a second
    lookup finds the same element. *)
Lemma getElementById_replaceChildren (id : string) (new : list node) (n : node) :
  forall p, getElementById id n = Some p ->
  getElementById id (replaceChildren p new n) = Some p.
Proof.
  induction n as [s | t a ch IH] using node_induction; intros p H.
  - discriminate.
  - simpl in H. destruct (has_id id (Element t a ch)) eqn:Hid.
    + inversion H; subst. simpl. 
      change (has_id id (Element t a new)) with (has_id id (Element t a ch)).
      rewrite Hid. reflexivity.
    + destruct p as [| j q].
      { apply first_match_Some in H. destruct H as (? & ? & ? & ? & _). discriminate. }
      simpl.
      change (has_id id (Element t a (update_nth j (replaceChildren q new) ch)))
        with (has_id id (Element t a ch)).
      rewrite Hid.
      rewrite Forall_forall in IH.
      apply (first_match_update _ (fun p c => replaceChildren p new c)) in H.
      * destruct H as [_ H]. rewrite Nat.sub_0_r in H. exact H.
      * intros c Hin p Hp. apply IH; assumption.
Qed.

(** ** The handler *)

(** The three ways through the handler. *)
Lemma handler_run (env : Env) (w : World) :
  snd (handler env w) =
  match getElementById "react-root" (doc w) with
  | None =>
      {| doc := doc w;
         console := console w ++ ["DOMContent not loaded :("];
         trace := trace w ++ [ALookup "react-root" None;
                              AError "DOMContent not loaded :("] |}
  | Some p =>
      if root_created env p
      then {| doc := replaceChildren p (to_dom env (app env)) (doc w);
              console := console w;
              trace := trace w ++ [ALookup "react-root" (Some p);
                                   ACreateRoot p (Some {| container := p |});
                                   ARender {| container := p |} (app env)] |}
      else {| doc := doc w;
              console := console w ++ ["Root for React not found"];
              trace := trace w ++ [ALookup "react-root" (Some p);
                                   ACreateRoot p None;
                                   AError "Root for React not found"] |}
  end.
Proof.
  unfold handler, bind, document_getElementById, ReactDOM_createRoot,
    root_render, console_error, record.
  cbn [fst snd].
  destruct (getElementById "react-root" (doc w)) as [p |]; cbn.
  - destruct (root_created env p); cbn;
      repeat rewrite <- app_assoc; reflexivity.
  - rewrite <- app_assoc. reflexivity.
Qed.

(** The handler reads nothing but the document, and only adds to the console
    and to the record. *)
Lemma handler_frame (env : Env) (w : World) :
  snd (handler env w) =
  {| doc := handler_doc env (doc w);
     console := console w ++ handler_logs env (doc w);
     trace := trace w ++ handler_actions env (doc w) |}.
Proof.
  unfold handler_doc, handler_logs, handler_actions.
  rewrite (handler_run env w), (handler_run env (fresh (doc w))).
  cbn [doc console trace fresh].
  destruct (getElementById "react-root" (doc w)) as [p |].
  - destruct (root_created env p); cbn [doc console trace app];
      rewrite ?app_nil_r; reflexivity.
  - reflexivity.
Qed.

Lemma mount_unfold (env : Env) (w : World) :
  mount env w =
  snd (handler env (record (AFire DOMContentLoaded)
                      (record (AListen DOMContentLoaded) w))).
Proof. reflexivity. Qed.

Lemma dispatch_loaded (env : Env) (type : string) (pg : Page) :
  listeners pg = [handler_listener env] ->
  dispatchEvent type pg =
  {| world := step env type (world pg); listeners := [handler_listener env] |}.
Proof.
  intros H. unfold dispatchEvent, step. rewrite H.
  assert (Hl : listens type (handler_listener env)
               = String.eqb type DOMContentLoaded)
    by apply String.eqb_sym.
  assert (Ho : l_once (handler_listener env) = false) by reflexivity.
  cbn [fold_left filter]. rewrite Hl, Ho, andb_false_r.
  reflexivity.
Qed.

Lemma fire_all_loaded (env : Env) (types : list string) :
  forall pg, listeners pg = [handler_listener env] ->
  fire_all types pg =
  {| world := steps env types (world pg);
     listeners := [handler_listener env] |}.
Proof.
  induction types as [| t types IH]; intros pg H.
  - cbn. rewrite <- H. destruct pg; reflexivity.
  - cbn [fire_all fold_left]. fold (fire_all types (dispatchEvent t pg)).
    rewrite (dispatch_loaded env t pg H). rewrite IH by reflexivity.
    reflexivity.
Qed.

Lemma step_trace (env : Env) (type : string) (w : World) :
  trace (step env type w) =
  trace w ++ AFire type ::
    (if String.eqb type DOMContentLoaded then handler_actions env (doc w) else []).
Proof.
  unfold step. destruct (String.eqb type DOMContentLoaded).
  - rewrite handler_frame. cbn [trace doc record].
    rewrite <- app_assoc. reflexivity.
  - reflexivity.
Qed.

(** Closes an equation between two records of actions that differ only in
    how the appended actions are grouped. *)
Ltac same_trace :=
  unfold record; cbn [doc console trace]; rewrite <- ?app_assoc; reflexivity.

Lemma to_dom_app (env : Env) :
  to_dom env (app env) =
  [Element "button" [("class", styles_container env)]
     (icon_dom env "CaretLeft" [("size", VNum 32)] ++
      Element "span" [("class", styles_text env)] [Text "Click me"] ::
      icon_dom env "CaretRight" [("size", VNum 32)])].
Proof.
  cbn. rewrite !app_nil_r. reflexivity.
Qed.

Lemma rendered_app (env : Env) (t u : list action) :
  rendered env (t ++ u) = rendered env t ++ rendered env u.
Proof. apply flat_map_app. Qed.

(** ** The mount sequence on a page with the anchor *)

(** C1.  For every document that contains the anchor element [react-root]
    when the ready signal fires, the mount sequence puts the button under
    the anchor and the anchor has exactly one button child: the element
    handed to the root is the button wrapped in [StrictMode], and the span of
    the button holds the text node "Click me".  [createRoot] is the
    library's: for the element found it returns a root. *)
Theorem anchor_gets_one_button (env : Env) (w : World) (p : handle) :
  createRoot_returns_root env ->
  getElementById "react-root" (doc w) = Some p ->
  exists ch,
    childNodes_at p (doc (mount env w)) = Some ch
    /\ In (Element "button" [("class", styles_container env)]
             (icon_dom env "CaretLeft" [("size", VNum 32)] ++
              Element "span" [("class", styles_text env)] [Text "Click me"] ::
              icon_dom env "CaretRight" [("size", VNum 32)])) ch
    /\ length (filter (is_tag "button") ch) = 1%nat
    /\ button_children p (doc (mount env w)) = 1%nat
    /\ trace (mount env w) =
         trace w ++
         [AListen DOMContentLoaded; AFire DOMContentLoaded;
          ALookup "react-root" (Some p);
          ACreateRoot p (Some {| container := p |});
          ARender {| container := p |}
            (EStrictMode [EComp "Button" (Button env) [("text", VStr "Click me")]])].
Proof.
  intros Hroot Hp.
  rewrite mount_unfold, handler_run. cbn [doc record].
  rewrite Hp, (Hroot p). cbn [doc console trace].
  assert (Hch : childNodes_at p (replaceChildren p (to_dom env (app env)) (doc w))
                = Some (to_dom env (app env)))
    by (eapply childNodes_at_replaceChildren; exact Hp).
  exists (to_dom env (app env)).
  unfold button_children. rewrite Hch, to_dom_app.
  split; [reflexivity | split; [left; reflexivity |]].
  split; [reflexivity | split; [reflexivity |]].
  same_trace.
Qed.

Lemma anchor_gets_one_button_witness :
  createRoot_returns_root env_ok
  /\ getElementById "react-root" (doc (fresh page_with_placeholder)) = Some [0; 0]%nat
  /\ button_children [0; 0]%nat (doc (mount env_ok (fresh page_with_placeholder)))
     = 1%nat.
Proof.
  assert (Hroot : createRoot_returns_root env_ok) by (intros c; reflexivity).
  split; [exact Hroot | split; [reflexivity |]].
  destruct (anchor_gets_one_button env_ok (fresh page_with_placeholder)
              [0; 0]%nat Hroot eq_refl) as (ch & _ & _ & _ & Hb & _).
  exact Hb.
Defined.

(** ** The two failures *)

(** C2.  For every document without the anchor element when the ready signal
    fires, the mount sequence leaves the document as it was, records exactly
    one log event, that of the missing anchor, and ends there: one lookup, no
    root creation, no render, no second attempt. *)
Theorem mount_without_anchor (env : Env) (w : World) :
  getElementById "react-root" (doc w) = None ->
  doc (mount env w) = doc w
  /\ console (mount env w) = console w ++ ["DOMContent not loaded :("]
  /\ trace (mount env w) =
       trace w ++
       [AListen DOMContentLoaded; AFire DOMContentLoaded;
        ALookup "react-root" None; AError "DOMContent not loaded :("]
  /\ final_state (handler_actions env (doc w)) = FailedNoAnchor.
Proof.
  intros Hp. unfold handler_actions.
  rewrite mount_unfold, !handler_run. cbn [doc record fresh].
  rewrite Hp. cbn [doc console trace].
  repeat split. same_trace.
Qed.

Lemma mount_without_anchor_witness :
  getElementById "react-root" (doc (fresh page_without_anchor)) = None
  /\ doc (mount env_ok (fresh page_without_anchor)) = page_without_anchor
  /\ console (mount env_ok (fresh page_without_anchor))
     = ["DOMContent not loaded :("].
Proof.
  split; [reflexivity |].
  pose proof (mount_without_anchor env_ok (fresh page_without_anchor) eq_refl)
    as (Hd & Hc & _).
  split; [exact Hd | exact Hc].
Defined.

(** C4.  For every run in which the anchor is found and the root-creation
    step yields no usable handle, the handler logs one error, which is not
    the one logged for a missing anchor, renders nothing, leaves the document
    as it was and ends there: one lookup, one root creation, no second
    attempt. *)
Theorem mount_without_root (env : Env) (w : World) (p : handle) :
  getElementById "react-root" (doc w) = Some p ->
  root_created env p = false ->
  doc (mount env w) = doc w
  /\ console (mount env w) = console w ++ ["Root for React not found"]
  /\ trace (mount env w) =
       trace w ++
       [AListen DOMContentLoaded; AFire DOMContentLoaded;
        ALookup "react-root" (Some p); ACreateRoot p None;
        AError "Root for React not found"]
  /\ rendered env (trace (mount env w)) = rendered env (trace w)
  /\ (forall w0, getElementById "react-root" (doc w0) = None ->
      handler_logs env (doc w0) <> handler_logs env (doc w))
  /\ final_state (handler_actions env (doc w)) = FailedNoRoot.
Proof.
  intros Hp Hr.
  assert (Ht : trace (mount env w) =
               trace w ++
               [AListen DOMContentLoaded; AFire DOMContentLoaded;
                ALookup "react-root" (Some p); ACreateRoot p None;
                AError "Root for React not found"]).
  { rewrite mount_unfold, handler_run. cbn [doc record].
    rewrite Hp, Hr. same_trace. }
  split; [| split; [| split; [exact Ht | split; [| split]]]].
  - rewrite mount_unfold, handler_run. cbn [doc record].
    rewrite Hp, Hr. reflexivity.
  - rewrite mount_unfold, handler_run. cbn [doc record].
    rewrite Hp, Hr. reflexivity.
  - rewrite Ht, rendered_app. cbn. apply app_nil_r.
  - intros w0 H0. unfold handler_logs. rewrite !handler_run.
    cbn [doc fresh]. rewrite H0, Hp, Hr. cbn. discriminate.
  - unfold handler_actions. rewrite handler_run.
    cbn [doc fresh]. rewrite Hp, Hr. reflexivity.
Qed.

Lemma mount_without_root_witness :
  getElementById "react-root" (doc (fresh page_with_anchor)) = Some [1; 1]%nat
  /\ root_created env_no_root [1; 1]%nat = false
  /\ doc (mount env_no_root (fresh page_with_anchor)) = page_with_anchor
  /\ console (mount env_no_root (fresh page_with_anchor))
     = ["Root for React not found"].
Proof.
  split; [reflexivity | split; [reflexivity |]].
  pose proof (mount_without_root env_no_root (fresh page_with_anchor)
                [1; 1]%nat eq_refl eq_refl) as (Hd & Hc & _).
  split; [exact Hd | exact Hc].
Defined.

(** C8.  The two error branches log fixed, distinct strings through
    [console.error], and the success branch logs nothing: a missing anchor
    gives exactly "DOMContent not loaded :(", a root that is not usable gives
    exactly "Root for React not found".  Each text names the opposite of the
    branch it comes from: "Root for React not found" is only logged when the
    [react-root] element was found, and "DOMContent not loaded :(" is only
    logged after the [DOMContentLoaded] event has fired. *)
Theorem error_messages (env : Env) (w : World) :
  (getElementById "react-root" (doc w) = None ->
   console (mount env w) = console w ++ ["DOMContent not loaded :("])
  /\ (forall p, getElementById "react-root" (doc w) = Some p ->
      root_created env p = false ->
      console (mount env w) = console w ++ ["Root for React not found"])
  /\ (forall p, getElementById "react-root" (doc w) = Some p ->
      root_created env p = true ->
      console (mount env w) = console w)
  /\ "DOMContent not loaded :(" <> "Root for React not found"
  /\ (In "Root for React not found" (handler_logs env (doc w)) ->
      anchor_present w = true)
  /\ (In "DOMContent not loaded :(" (handler_logs env (doc w)) ->
      exists t1, trace (mount env w) = t1 ++ [AError "DOMContent not loaded :("]
                 /\ In (AFire DOMContentLoaded) t1).
Proof.
  unfold handler_logs, anchor_present.
  rewrite mount_unfold, !handler_run. cbn [doc record fresh].
  destruct (getElementById "react-root" (doc w)) as [p |] eqn:Hp;
    [destruct (root_created env p) eqn:Hr |];
    unfold record; cbn [doc console trace fresh app];
    repeat match goal with |- _ /\ _ => split end;
    try discriminate; try reflexivity;
    try (intros q Hq Hf; inversion Hq; subst; congruence);
    try (intros [H | []]; discriminate);
    try (intros [] ; fail).
  intros _.
  exists (trace w ++ [AListen DOMContentLoaded; AFire DOMContentLoaded;
                      ALookup "react-root" None]).
  split.
  - rewrite <- ?app_assoc. reflexivity.
  - apply in_or_app. right. right. left. reflexivity.
Qed.

(** ** The Button component *)

(** C9.  For every text, the output of [Button] is one [button] element with
    exactly three children in this order: the left caret icon of size 32, a
    [span] holding the text, the right caret icon of size 32.  No prop in it
    attaches an event handler, and the output is a function of the [text]
    prop alone: the component keeps nothing between calls. *)
Theorem Button_shape (env : Env) (text : string) :
  Button env [("text", VStr text)] =
    EHost "button" [("className", VStr (styles_container env))]
      [ EExt "CaretLeft" [("size", VNum 32)];
        EHost "span" [("className", VStr (styles_text env))] [EValue (VStr text)];
        EExt "CaretRight" [("size", VNum 32)] ]
  /\ length (host_children (Button env [("text", VStr text)])) = 3%nat
  /\ handler_props (Button env [("text", VStr text)]) = []
  /\ (forall p1 p2, get_prop "text" p1 = get_prop "text" p2 ->
      Button env p1 = Button env p2).
Proof.
  repeat match goal with |- _ /\ _ => split end; try reflexivity.
  intros p1 p2 H. unfold Button. rewrite H. reflexivity.
Qed.

(** C6 (amended).  [Button] renders from its text alone.  For "Click me"
    the span of the rendered button holds the text node "Click me".  For the
    empty string the component still returns its element, with the empty
    string as the child of the span: the rendered span has no child node, its
    text is empty, and rendering into a root puts this button under the
    container, the only button there. *)
Theorem Button_text_rendering (env : Env) :
  to_dom env (Button env [("text", VStr "Click me")]) =
    [Element "button" [("class", styles_container env)]
       (icon_dom env "CaretLeft" [("size", VNum 32)] ++
        Element "span" [("class", styles_text env)] [Text "Click me"] ::
        icon_dom env "CaretRight" [("size", VNum 32)])]
  /\ to_dom env (Button env [("text", VStr "")]) =
    [Element "button" [("class", styles_container env)]
       (icon_dom env "CaretLeft" [("size", VNum 32)] ++
        Element "span" [("class", styles_text env)] [] ::
        icon_dom env "CaretRight" [("size", VNum 32)])]
  /\ (forall s, host_children (Button env [("text", VStr s)]) =
        [ EExt "CaretLeft" [("size", VNum 32)];
          EHost "span" [("className", VStr (styles_text env))] [EValue (VStr s)];
          EExt "CaretRight" [("size", VNum 32)] ])
  /\ (forall s, textContent (Element "span" [("class", styles_text env)]
                              (to_dom env (EValue (VStr s)))) = s)
  /\ (forall s w p, getElementById "react-root" (doc w) = Some p ->
      exists ch,
        childNodes_at p
          (doc (snd (root_render env {| container := p |}
                       (EComp "Button" (Button env) [("text", VStr s)]) w)))
        = Some ch
        /\ (forall b, In b (to_dom env (Button env [("text", VStr s)])) -> In b ch)
        /\ length (filter (is_tag "button") ch) = 1%nat).
Proof.
  repeat match goal with |- _ /\ _ => split end.
  - cbn. rewrite !app_nil_r. reflexivity.
  - cbn. rewrite !app_nil_r. reflexivity.
  - reflexivity.
  - intros s. destruct s; reflexivity.
  - intros s w p Hp.
    exists (to_dom env (EComp "Button" (Button env) [("text", VStr s)])).
    unfold root_render. cbn [snd doc container].
    rewrite (childNodes_at_replaceChildren _ _ _ _ Hp).
    split; [reflexivity | split; [intros b Hb; exact Hb | reflexivity]].
Qed.

(** C6 as stated fails for the empty string: the span of the mounted button
    has no child node, so it holds no empty text node. *)
Lemma empty_text_makes_no_text_node :
  childNodes_at [1; 1; 0; 1]%nat
    (doc (snd (root_render env_ok {| container := [1; 1]%nat |}
                 (EComp "Button" (Button env_ok) [("text", VStr "")])
                 (fresh page_with_anchor)))) = Some []
  /\ childNodes_at [1; 1; 0; 1]%nat
       (doc (snd (root_render env_ok {| container := [1; 1]%nat |}
                    (EComp "Button" (Button env_ok) [("text", VStr "")])
                    (fresh page_with_anchor)))) <> Some [Text ""].
Proof.
  split; [reflexivity |]. vm_compute. discriminate.
Qed.

(** ** The build configuration *)

(** C7.  The configuration fixes one entry file, [./src/main.jsx], one output
    file name, [react-build.js], one output directory, [../static/build/],
    and a development server origin with [cors] switched on. *)
Theorem vite_config_fixed :
  get_path ["build"; "rollupOptions"; "input"] vite_config
    = Some (JStr "./src/main.jsx")
  /\ get_path ["build"; "rollupOptions"; "output"; "entryFileNames"] vite_config
    = Some (JStr "react-build.js")
  /\ get_path ["build"; "outDir"] vite_config = Some (JStr "../static/build/")
  /\ get_path ["server"; "origin"] vite_config = Some (JStr "http://localhost:8000")
  /\ get_path ["server"; "cors"] vite_config = Some (JBool true).
Proof.
  repeat split.
Qed.

(** ** Runs of the handler, one after another *)

Lemma handler_actions_cases (env : Env) (d : node) :
  handler_actions env d =
  match getElementById "react-root" d with
  | None => [ALookup "react-root" None; AError "DOMContent not loaded :("]
  | Some p =>
      if root_created env p
      then [ALookup "react-root" (Some p);
            ACreateRoot p (Some {| container := p |});
            ARender {| container := p |} (app env)]
      else [ALookup "react-root" (Some p); ACreateRoot p None;
            AError "Root for React not found"]
  end.
Proof.
  unfold handler_actions. rewrite handler_run. cbn [doc fresh].
  destruct (getElementById "react-root" d) as [p |];
    [destruct (root_created env p) |]; reflexivity.
Qed.

Lemma handler_logs_cases (env : Env) (d : node) :
  handler_logs env d =
  match getElementById "react-root" d with
  | None => ["DOMContent not loaded :("]
  | Some p => if root_created env p then [] else ["Root for React not found"]
  end.
Proof.
  unfold handler_logs. rewrite handler_run. cbn [doc fresh].
  destruct (getElementById "react-root" d) as [p |];
    [destruct (root_created env p) |]; reflexivity.
Qed.

Lemma handler_doc_cases (env : Env) (d : node) :
  handler_doc env d =
  match getElementById "react-root" d with
  | None => d
  | Some p =>
      if root_created env p
      then replaceChildren p (to_dom env (app env)) d
      else d
  end.
Proof.
  unfold handler_doc. rewrite handler_run. cbn [doc fresh].
  destruct (getElementById "react-root" d) as [p |];
    [destruct (root_created env p) |]; reflexivity.
Qed.

(** One run is one lookup, made of actions of the mount sequence only, and
    it ends in one of the three final states. *)
Lemma handler_actions_run (env : Env) (d : node) :
  mount_runs (handler_actions env d) = 1%nat
  /\ forallb mount_action (handler_actions env d) = true
  /\ final_state (handler_actions env d) <> Waiting.
Proof.
  rewrite handler_actions_cases.
  destruct (getElementById "react-root" d) as [p |];
    [destruct (root_created env p) |];
    (split; [reflexivity | split; [reflexivity | discriminate]]).
Qed.

(** A run does not move the anchor. *)
Lemma handler_doc_anchor (env : Env) (d : node) :
  getElementById "react-root" (handler_doc env d) = getElementById "react-root" d.
Proof.
  rewrite handler_doc_cases.
  destruct (getElementById "react-root" d) as [p |] eqn:Hp; [| exact Hp].
  destruct (root_created env p); [| exact Hp].
  apply getElementById_replaceChildren. exact Hp.
Qed.

Lemma count_app (f : action -> bool) (t u : list action) :
  count f (t ++ u) = (count f t + count f u)%nat.
Proof.
  unfold count. rewrite filter_app. apply length_app.
Qed.

Lemma step_doc (env : Env) (type : string) (w : World) :
  doc (step env type w) =
  if String.eqb type DOMContentLoaded then handler_doc env (doc w) else doc w.
Proof.
  unfold step. destruct (String.eqb type DOMContentLoaded).
  - rewrite handler_frame. reflexivity.
  - reflexivity.
Qed.

Lemma step_console (env : Env) (type : string) (w : World) :
  console (step env type w) =
  if String.eqb type DOMContentLoaded
  then console w ++ handler_logs env (doc w)
  else console w.
Proof.
  unfold step. destruct (String.eqb type DOMContentLoaded).
  - rewrite handler_frame. reflexivity.
  - reflexivity.
Qed.

Lemma ready_count_cons (type : string) (types : list string) :
  ready_count (type :: types) =
  ((if String.eqb type DOMContentLoaded then 1 else 0) + ready_count types)%nat.
Proof.
  unfold ready_count. cbn [filter].
  destruct (String.eqb type DOMContentLoaded); reflexivity.
Qed.

Lemma steps_cons (env : Env) (type : string) (types : list string) (w : World) :
  steps env (type :: types) w = steps env types (step env type w).
Proof. reflexivity. Qed.





(** ** Nothing before the ready signal *)

Lemma after_ready_true (t : list action) : after_ready true t = true.
Proof.
  induction t as [| a t IH]; [reflexivity |].
  cbn [after_ready orb]. rewrite orb_true_r, IH. reflexivity.
Qed.

Lemma after_ready_sound (t : list action) :
  forall seen, after_ready seen t = true ->
  forall t1 a t2, t = t1 ++ a :: t2 -> mount_action a = true ->
  seen || existsb is_ready t1 = true.
Proof.
  induction t as [| b t IH]; intros seen H t1 a t2 E Ha.
  - destruct t1; discriminate.
  - cbn [after_ready] in H. apply andb_true_iff in H. destruct H as [H1 H2].
    destruct t1 as [| c t1]; cbn [List.app] in E; inversion E; subst.
    + rewrite Ha in H1. cbn in H1. rewrite H1. reflexivity.
    + cbn [existsb]. rewrite orb_assoc. eapply IH; eauto.
Qed.

(** Whatever events are fired, the actions of the mount sequence come after
    a ready signal, and until one is fired the page stays as it was. *)
Lemma steps_after_ready (env : Env) (types : list string) :
  forall w, exists t,
    trace (steps env types w) = trace w ++ t
    /\ after_ready false t = true
    /\ (ready_count types = 0%nat ->
        doc (steps env types w) = doc w
        /\ console (steps env types w) = console w
        /\ count mount_action t = 0%nat).
Proof.
  induction types as [| type types IH]; intros w.
  - exists []. cbn [steps fold_left]. rewrite app_nil_r. auto.
  - destruct (IH (step env type w)) as (t & Ht & Ho & Hq).
    rewrite steps_cons, Ht, step_trace, ready_count_cons.
    rewrite step_doc, step_console in Hq.
    destruct (String.eqb type DOMContentLoaded) eqn:Hty.
    + exists (AFire type :: handler_actions env (doc w) ++ t).
      split; [rewrite <- app_assoc; reflexivity | split].
      * cbn [after_ready mount_action negb orb is_ready]. rewrite Hty.
        apply after_ready_true.
      * intros H. discriminate.
    + exists (AFire type :: t).
      split; [rewrite <- app_assoc; reflexivity | split].
      * cbn [after_ready mount_action negb orb is_ready]. rewrite Hty. exact Ho.
      * intros H. destruct (Hq H) as (Hd & Hc & Hm).
        repeat split; assumption.
Qed.

(** C5.  The mount sequence does nothing before the ready signal: loading
    the module only registers the listener, every lookup, root creation,
    render and log in the record of the page comes after a fired
    [DOMContentLoaded], and as long as none is fired the document and the
    console are as they were.  Once the signal fires the handler runs to its
    end within that dispatch: its actions follow the signal as one block, and
    the block ends in one of the three final states. *)
Theorem mount_only_after_ready (env : Env) (w : World) (types : list string) :
  exists t,
    trace (world (fire_all types (load env w))) =
      trace w ++ AListen DOMContentLoaded :: t
    /\ (forall t1 a t2, t = t1 ++ a :: t2 -> mount_action a = true ->
        existsb is_ready t1 = true)
    /\ (ready_count types = 0%nat ->
        doc (world (fire_all types (load env w))) = doc w
        /\ console (world (fire_all types (load env w))) = console w
        /\ count mount_action t = 0%nat)
    /\ (exists block,
        trace (world (dispatchEvent DOMContentLoaded (fire_all types (load env w)))) =
          trace (world (fire_all types (load env w))) ++
          AFire DOMContentLoaded :: block
        /\ forallb mount_action block = true
        /\ final_state block <> Waiting).
Proof.
  rewrite (dispatch_loaded env DOMContentLoaded (fire_all types (load env w)))
    by (rewrite (fire_all_loaded env types (load env w) eq_refl); reflexivity).
  rewrite (fire_all_loaded env types (load env w) eq_refl).
  cbn [world load main addEventListener].
  destruct (steps_after_ready env types (record (AListen DOMContentLoaded) w))
    as (t & Ht & Ho & Hq).
  exists t. split; [| split; [| split]].
  - rewrite Ht. same_trace.
  - intros t1 a t2 E Ha.
    exact (after_ready_sound t false Ho t1 a t2 E Ha).
  - exact Hq.
  - exists (handler_actions env (doc (steps env types (record (AListen DOMContentLoaded) w)))).
    split.
    + rewrite step_trace. reflexivity.
    + destruct (handler_actions_run env
                  (doc (steps env types (record (AListen DOMContentLoaded) w))))
        as (_ & Hb & Hf).
      split; assumption.
Qed.

(** ** Determinism *)

(** What a run does is a function of the two facts the handler branches on. *)
Lemma outcome_by_ambient (env : Env) (w1 w2 : World) :
  anchor_present w1 = anchor_present w2 ->
  root_usable env w1 = root_usable env w2 ->
  final_state (handler_actions env (doc w1)) =
    final_state (handler_actions env (doc w2))
  /\ handler_logs env (doc w1) = handler_logs env (doc w2)
  /\ rendered env (handler_actions env (doc w1)) =
     rendered env (handler_actions env (doc w2)).
Proof.
  unfold anchor_present, root_usable.
  rewrite !handler_actions_cases, !handler_logs_cases.
  destruct (getElementById "react-root" (doc w1)) as [p1 |];
    destruct (getElementById "react-root" (doc w2)) as [p2 |];
    intros Ha Hr; try discriminate.
  - rewrite Hr. destruct (root_created env p2); repeat split.
  - repeat split.
Qed.

(** C10.  The handler is deterministic in the ambient state: two runs that
    start with the same presence of the anchor and the same usability of the
    root end in the same state, log the same messages and render the same
    subtree, which is what the anchor holds afterwards when the run mounts;
    and a run leaves both facts as they were, so a run right after it takes
    the same branch. *)
Theorem handler_deterministic (env : Env) (w1 w2 : World) :
  anchor_present w1 = anchor_present w2 ->
  root_usable env w1 = root_usable env w2 ->
  final_state (handler_actions env (doc w1)) =
    final_state (handler_actions env (doc w2))
  /\ handler_logs env (doc w1) = handler_logs env (doc w2)
  /\ rendered env (handler_actions env (doc w1)) =
     rendered env (handler_actions env (doc w2))
  /\ console (snd (handler env w1)) = console w1 ++ handler_logs env (doc w1)
  /\ trace (snd (handler env w1)) = trace w1 ++ handler_actions env (doc w1)
  /\ (forall p1 p2,
      getElementById "react-root" (doc w1) = Some p1 ->
      getElementById "react-root" (doc w2) = Some p2 ->
      root_usable env w1 = true ->
      childNodes_at p1 (doc (snd (handler env w1))) =
      childNodes_at p2 (doc (snd (handler env w2))))
  /\ anchor_present (snd (handler env w1)) = anchor_present w1
  /\ root_usable env (snd (handler env w1)) = root_usable env w1.
Proof.
  intros Ha Hr.
  destruct (outcome_by_ambient env w1 w2 Ha Hr) as (H1 & H2 & H3).
  rewrite !handler_frame. cbn [doc console trace].
  repeat match goal with |- _ /\ _ => split end; try assumption; try reflexivity.
  - intros p1 p2 Hp1 Hp2 Hu.
    assert (Hu2 : root_usable env w2 = true) by congruence.
    unfold root_usable in Hu, Hu2. rewrite Hp1 in Hu. rewrite Hp2 in Hu2.
    rewrite !handler_doc_cases, Hp1, Hp2, Hu, Hu2.
    rewrite (childNodes_at_replaceChildren _ _ _ _ Hp1).
    rewrite (childNodes_at_replaceChildren _ _ _ _ Hp2).
    reflexivity.
  - unfold anchor_present. cbn [doc]. rewrite handler_doc_anchor. reflexivity.
  - unfold root_usable. cbn [doc]. rewrite handler_doc_anchor. reflexivity.
Qed.

Lemma handler_deterministic_witness :
  anchor_present (fresh page_with_anchor) = anchor_present (fresh page_with_placeholder)
  /\ root_usable env_ok (fresh page_with_anchor) =
     root_usable env_ok (fresh page_with_placeholder)
  /\ final_state (handler_actions env_ok page_with_anchor) =
     final_state (handler_actions env_ok page_with_placeholder)
  /\ handler_logs env_ok page_with_anchor = handler_logs env_ok page_with_placeholder.
Proof.
  split; [reflexivity | split; [reflexivity |]].
  pose proof (handler_deterministic env_ok (fresh page_with_anchor)
                (fresh page_with_placeholder) eq_refl eq_refl) as (Hs & Hl & _).
  split; [exact Hs | exact Hl].
Defined.

(** * Further properties of the code *)

(** ** What the mount sequence leaves alone *)

Lemma nth_error_update_nth_other {A : Type} (g : A -> A) (l : list A) :
  forall i j, i <> j -> nth_error (update_nth i g l) j = nth_error l j.
Proof.
  induction l as [| x l IH]; intros [| i] [| j] H; cbn; auto.
  congruence.
Qed.

Lemma label_replaceChildren (new : list node) (q : handle) :
  forall p n, is_prefix q p = true ->
  option_map label (node_at q (replaceChildren p new n)) =
  option_map label (node_at q n).
Proof.
  induction q as [| i q IH]; intros p n H.
  - destruct p, n; reflexivity.
  - destruct p as [| j p]; [discriminate |].
    cbn [is_prefix] in H. apply andb_true_iff in H. destruct H as [Hij Hq].
    apply Nat.eqb_eq in Hij. subst j.
    destruct n as [s | t a ch]; [reflexivity |].
    cbn [replaceChildren node_at]. rewrite nth_error_update_nth.
    destruct (nth_error ch i) as [c |]; [| reflexivity].
    cbn [option_map]. apply IH. exact Hq.
Qed.

Lemma node_at_replaceChildren_apart (new : list node) (q : handle) :
  forall p n, is_prefix p q = false -> is_prefix q p = false ->
  node_at q (replaceChildren p new n) = node_at q n.
Proof.
  induction q as [| i q IH]; intros p n Hpq Hqp.
  - discriminate.
  - destruct p as [| j p]; [discriminate |].
    destruct n as [s | t a ch]; [reflexivity |].
    cbn [replaceChildren node_at].
    destruct (Nat.eq_dec j i) as [-> | Hne].
    + cbn [is_prefix] in Hpq, Hqp. rewrite Nat.eqb_refl in Hpq, Hqp.
      cbn [andb] in Hpq, Hqp.
      rewrite nth_error_update_nth.
      destruct (nth_error ch i) as [c |]; [| reflexivity].
      cbn [option_map]. apply IH; assumption.
    + rewrite nth_error_update_nth_other by exact Hne. reflexivity.
Qed.

Lemma mount_doc (env : Env) (w : World) :
  doc (mount env w) = handler_doc env (doc w).
Proof.
  rewrite mount_unfold, handler_frame. reflexivity.
Qed.

(** X1.  The mount sequence changes nothing of the document but what is
    below the anchor: the anchor and every element above it keep their tag
    and attributes, and every node that is neither above nor below the
    anchor is the node it was, whichever branch the handler takes. *)
Theorem mount_frame (env : Env) (w : World) (p : handle) :
  getElementById "react-root" (doc w) = Some p ->
  (forall q, is_prefix q p = true ->
   option_map label (node_at q (doc (mount env w))) =
   option_map label (node_at q (doc w)))
  /\ (forall q, is_prefix p q = false -> is_prefix q p = false ->
      node_at q (doc (mount env w)) = node_at q (doc w)).
Proof.
  intros Hp. rewrite mount_doc, handler_doc_cases, Hp.
  destruct (root_created env p).
  - split.
    + intros q Hq. apply label_replaceChildren. exact Hq.
    + intros q H1 H2. apply node_at_replaceChildren_apart; assumption.
  - split; reflexivity.
Qed.

Lemma mount_frame_witness :
  getElementById "react-root" (doc (fresh page_with_anchor)) = Some [1; 1]%nat
  /\ node_at [1; 0]%nat (doc (mount env_ok (fresh page_with_anchor))) =
     Some (Element "h1" [] [Text "Hello from django"])
  /\ option_map label (node_at [1; 1]%nat (doc (mount env_ok (fresh page_with_anchor)))) =
     Some (Some ("div", [("id", "react-root")])).
Proof.
  split; [reflexivity |].
  pose proof (mount_frame env_ok (fresh page_with_anchor) [1; 1]%nat eq_refl)
    as (Hl & Ha).
  split.
  - exact (Ha [1; 0]%nat eq_refl eq_refl).
  - exact (Hl [1; 1]%nat eq_refl).
Defined.

(** ** Firing the ready signal again *)

Lemma update_nth_idempotent {A : Type} (g : A -> A) (l : list A) :
  (forall x, g (g x) = g x) ->
  forall i, update_nth i g (update_nth i g l) = update_nth i g l.
Proof.
  intros Hg. induction l as [| x l IH]; intros [| i]; cbn; auto.
  - rewrite Hg. reflexivity.
  - rewrite IH. reflexivity.
Qed.

Lemma replaceChildren_idempotent (new : list node) (p : handle) :
  forall n, replaceChildren p new (replaceChildren p new n) = replaceChildren p new n.
Proof.
  induction p as [| i p IH]; intros [s | t a ch]; cbn [replaceChildren];
    try reflexivity.
  rewrite update_nth_idempotent by exact IH. reflexivity.
Qed.

Lemma handler_doc_idempotent (env : Env) (d : node) :
  handler_doc env (handler_doc env d) = handler_doc env d.
Proof.
  rewrite (handler_doc_cases env (handler_doc env d)), handler_doc_anchor.
  rewrite handler_doc_cases.
  destruct (getElementById "react-root" d) as [p |]; [| reflexivity].
  destruct (root_created env p); [| reflexivity].
  apply replaceChildren_idempotent.
Qed.

Lemma steps_doc (env : Env) (types : list string) :
  forall w,
  doc (steps env types w) =
  match ready_count types with
  | O => doc w
  | S _ => handler_doc env (doc w)
  end.
Proof.
  induction types as [| type types IH]; intros w.
  - reflexivity.
  - rewrite steps_cons, IH, step_doc, ready_count_cons.
    destruct (String.eqb type DOMContentLoaded); cbn [Nat.add].
    + destruct (ready_count types); [reflexivity |].
      apply handler_doc_idempotent.
    + reflexivity.
Qed.

(** X2.  Firing the ready signal again changes the document no further:
    after any sequence of events with at least one ready signal in it, the
    document is the one the first run left. *)
Theorem mount_again_same_document (env : Env) (w : World) (types : list string) :
  (1 <= ready_count types)%nat ->
  doc (world (fire_all types (load env w))) = doc (mount env w).
Proof.
  intros Hn.
  rewrite (fire_all_loaded env types (load env w) eq_refl).
  cbn [world load main addEventListener].
  rewrite steps_doc, mount_doc.
  destruct (ready_count types); [lia | reflexivity].
Qed.

Lemma mount_again_same_document_witness :
  (1 <= ready_count ["click"; DOMContentLoaded; "load"; DOMContentLoaded])%nat
  /\ doc (world (fire_all ["click"; DOMContentLoaded; "load"; DOMContentLoaded]
                   (load env_ok (fresh page_with_placeholder))))
     = doc (mount env_ok (fresh page_with_placeholder)).
Proof.
  assert (H : (1 <= ready_count ["click"; DOMContentLoaded; "load"; DOMContentLoaded])%nat)
    by (cbn; lia).
  split; [exact H |].
  exact (mount_again_same_document env_ok (fresh page_with_placeholder) _ H).
Defined.

Lemma handler_logs_stable (env : Env) (d : node) :
  handler_logs env (handler_doc env d) = handler_logs env d.
Proof.
  rewrite !handler_logs_cases, handler_doc_anchor. reflexivity.
Qed.

Lemma steps_console (env : Env) (types : list string) :
  forall w,
  console (steps env types w) =
  console w ++ concat (repeat (handler_logs env (doc w)) (ready_count types)).
Proof.
  induction types as [| type types IH]; intros w.
  - cbn. rewrite app_nil_r. reflexivity.
  - rewrite steps_cons, IH, step_console, step_doc, ready_count_cons.
    destruct (String.eqb type DOMContentLoaded).
    + rewrite handler_logs_stable. cbn [Nat.add repeat concat].
      rewrite <- app_assoc. reflexivity.
    + reflexivity.
Qed.

Lemma concat_repeat_one {A : Type} (x : A) (n : nat) :
  concat (repeat [x] n) = repeat x n.
Proof.
  induction n as [| n IH]; cbn; [| rewrite IH]; reflexivity.
Qed.

Lemma steps_without_anchor (env : Env) (types : list string) :
  forall w,
  getElementById "react-root" (doc w) = None ->
  doc (steps env types w) = doc w
  /\ count is_createRoot (trace (steps env types w)) =
     count is_createRoot (trace w).
Proof.
  induction types as [| type types IH]; intros w Hp.
  - split; reflexivity.
  - rewrite steps_cons.
    assert (Hd : doc (step env type w) = doc w).
    { rewrite step_doc, handler_doc_cases, Hp.
      destruct (String.eqb type DOMContentLoaded); reflexivity. }
    destruct (IH (step env type w)) as [IHd IHc]; [rewrite Hd; exact Hp |].
    split; [rewrite IHd; exact Hd |].
    rewrite IHc, step_trace, handler_actions_cases, Hp, count_app.
    destruct (String.eqb type DOMContentLoaded); cbn; lia.
Qed.

(** X3.  On a page without the anchor every ready signal logs the same
    error once more: after any sequence of events the console has gained one
    "DOMContent not loaded :(" per ready signal in it and nothing else, the
    document is as it was, and [createRoot] has not been called. *)
Theorem missing_anchor_logged_per_signal (env : Env) (w : World)
    (types : list string) :
  getElementById "react-root" (doc w) = None ->
  console (world (fire_all types (load env w))) =
    console w ++ repeat "DOMContent not loaded :(" (ready_count types)
  /\ doc (world (fire_all types (load env w))) = doc w
  /\ count is_createRoot (trace (world (fire_all types (load env w)))) =
     count is_createRoot (trace w).
Proof.
  intros Hp.
  rewrite (fire_all_loaded env types (load env w) eq_refl).
  cbn [world load main addEventListener].
  destruct (steps_without_anchor env types (record (AListen DOMContentLoaded) w) Hp)
    as [Hd Hc].
  split; [| split].
  - rewrite steps_console, handler_logs_cases. cbn [doc console record].
    rewrite Hp, concat_repeat_one. reflexivity.
  - exact Hd.
  - rewrite Hc. unfold record. cbn [trace]. rewrite count_app. cbn. lia.
Qed.

Lemma missing_anchor_logged_per_signal_witness :
  getElementById "react-root" (doc (fresh page_without_anchor)) = None
  /\ console (world (fire_all [DOMContentLoaded; "load"; DOMContentLoaded]
                       (load env_ok (fresh page_without_anchor))))
     = ["DOMContent not loaded :("; "DOMContent not loaded :("].
Proof.
  split; [reflexivity |].
  exact (proj1 (missing_anchor_logged_per_signal env_ok (fresh page_without_anchor)
                  [DOMContentLoaded; "load"; DOMContentLoaded] eq_refl)).
Defined.

(** ** The entry module evaluated several times *)

Lemma handler_runs_once (env : Env) (w : World) :
  mount_runs (trace (snd (handler env w))) = S (mount_runs (trace w)).
Proof.
  rewrite handler_frame. cbn [trace]. unfold mount_runs. rewrite count_app.
  fold (mount_runs (handler_actions env (doc w))).
  destruct (handler_actions_run env (doc w)) as [-> _]. lia.
Qed.

Lemma load_times_listeners (env : Env) (k : nat) (w : World) :
  listeners (load_times env k w) = repeat (handler_listener env) k
  /\ mount_runs (trace (world (load_times env k w))) = mount_runs (trace w).
Proof.
  unfold load_times. induction k as [| k [IHl IHt]].
  - split; reflexivity.
  - change (Nat.iter (S k) (main env) {| world := w; listeners := [] |})
      with (main env (Nat.iter k (main env) {| world := w; listeners := [] |})).
    remember (Nat.iter k (main env) {| world := w; listeners := [] |}) as pg.
    unfold main, addEventListener. cbn [listeners world]. split.
    + rewrite IHl. symmetry. apply (repeat_cons k (handler_listener env)).
    + unfold record. cbn [trace]. unfold mount_runs in *.
      rewrite count_app, IHt. cbn. lia.
Qed.

Lemma callbacks_repeat (env : Env) (type : string) (k : nat) :
  forall w,
  mount_runs
    (trace (fold_left
              (fun w l => if listens type l then snd (l_callback l w) else w)
              (repeat (handler_listener env) k) w)) =
  (mount_runs (trace w) + if String.eqb type DOMContentLoaded then k else 0)%nat.
Proof.
  assert (Hl : listens type (handler_listener env)
               = String.eqb type DOMContentLoaded)
    by apply String.eqb_sym.
  induction k as [| k IH]; intros w.
  - cbn [repeat fold_left]. destruct (String.eqb type DOMContentLoaded); lia.
  - cbn [repeat fold_left]. rewrite IH, Hl.
    destruct (String.eqb type DOMContentLoaded).
    + change (l_callback (handler_listener env)) with (handler env).
      rewrite handler_runs_once. lia.
    + lia.
Qed.

Lemma filter_repeat_listener (env : Env) (type : string) (k : nat) :
  filter (fun l => negb (listens type l && l_once l))
    (repeat (handler_listener env) k) = repeat (handler_listener env) k.
Proof.
  induction k as [| k IH]; [reflexivity |].
  cbn [repeat filter].
  replace (l_once (handler_listener env)) with false by reflexivity.
  rewrite andb_false_r. cbn [negb]. rewrite IH. reflexivity.
Qed.

Lemma fire_all_repeat (env : Env) (k : nat) (types : list string) :
  forall pg, listeners pg = repeat (handler_listener env) k ->
  mount_runs (trace (world (fire_all types pg))) =
  (mount_runs (trace (world pg)) + k * ready_count types)%nat.
Proof.
  induction types as [| type types IH]; intros pg Hl.
  - cbn. lia.
  - cbn [fire_all fold_left]. fold (fire_all types (dispatchEvent type pg)).
    rewrite IH.
    + unfold dispatchEvent. cbn [world]. rewrite Hl, callbacks_repeat.
      rewrite ready_count_cons. unfold record, mount_runs. cbn [trace].
      rewrite count_app.
      destruct (String.eqb type DOMContentLoaded); cbn; lia.
    + unfold dispatchEvent. cbn [listeners]. rewrite Hl.
      apply filter_repeat_listener.
Qed.

(** X4.  Nothing keeps the listener from being registered again: when the
    top level of main.jsx runs [k] times on a page, every ready signal runs
    the mount sequence [k] times, so [n] signals make [k * n] runs. *)
Theorem mount_runs_per_registration (env : Env) (k : nat) (w : World)
    (types : list string) :
  mount_runs (trace (world (fire_all types (load_times env k w)))) =
  (mount_runs (trace w) + k * ready_count types)%nat.
Proof.
  destruct (load_times_listeners env k w) as [Hl Ht].
  rewrite (fire_all_repeat env k types _ Hl), Ht. reflexivity.
Qed.

(** ** The Button component on other props *)

Lemma get_prop_missing (name : string) (p : props) :
  ~ In name (map fst p) -> get_prop name p = VUndefined.
Proof.
  unfold get_prop. induction p as [| [k v] p IH]; intros H; [reflexivity |].
  cbn [find fst]. destruct (String.eqb k name) eqn:E.
  - apply String.eqb_eq in E. subst. exfalso. apply H. left. reflexivity.
  - apply IH. intros Hin. apply H. right. exact Hin.
Qed.

(** X5.  Called with props that hold no [text], [Button] still returns its
    button with the two icons: the span gets the undefined value as its
    child and renders with no child node at all. *)
Theorem Button_without_text (env : Env) (p : props) :
  ~ In "text" (map fst p) ->
  Button env p =
    EHost "button" [("className", VStr (styles_container env))]
      [ EExt "CaretLeft" [("size", VNum 32)];
        EHost "span" [("className", VStr (styles_text env))] [EValue VUndefined];
        EExt "CaretRight" [("size", VNum 32)] ]
  /\ to_dom env (Button env p) =
    [Element "button" [("class", styles_container env)]
       (icon_dom env "CaretLeft" [("size", VNum 32)] ++
        Element "span" [("class", styles_text env)] [] ::
        icon_dom env "CaretRight" [("size", VNum 32)])].
Proof.
  intros H. unfold Button. rewrite (get_prop_missing "text" p H).
  split; [reflexivity |].
  cbn. rewrite !app_nil_r. reflexivity.
Qed.

Lemma Button_without_text_witness :
  ~ In "text" (map fst [("label", VStr "Click me"); ("onClick", VStr "go")])
  /\ handler_props
       (Button env_ok [("label", VStr "Click me"); ("onClick", VStr "go")]) = []
  /\ map textContent
       (to_dom env_ok
          (Button env_ok [("label", VStr "Click me"); ("onClick", VStr "go")]))
     = [""].
Proof.
  assert (H : ~ In "text" (map fst [("label", VStr "Click me"); ("onClick", VStr "go")])).
  { cbn. intros [E | [E | []]]; discriminate. }
  split; [exact H |].
  destruct (Button_without_text env_ok _ H) as [He Hd].
  split; [rewrite He | rewrite Hd]; reflexivity.
Defined.

Lemma concat_empty_cons (x : string) (l : list string) :
  String.concat "" (x :: l) = String.append x (String.concat "" l).
Proof.
  destruct l as [| y l]; cbn [String.concat].
  - induction x as [| c x IH]; cbn; [| rewrite <- IH]; reflexivity.
  - reflexivity.
Qed.

Lemma textContent_silent (l rest : list node) :
  (forall n, In n l -> textContent n = "") ->
  String.concat "" (map textContent (l ++ rest)) =
  String.concat "" (map textContent rest).
Proof.
  induction l as [| n l IH]; intros H; [reflexivity |].
  cbn [List.app map]. rewrite concat_empty_cons.
  rewrite (H n (or_introl eq_refl)). cbn [String.append].
  apply IH. intros m Hm. apply H. right. exact Hm.
Qed.

Lemma append_empty_r (s : string) : String.append s "" = s.
Proof.
  induction s as [| c s IH]; cbn; [| rewrite IH]; reflexivity.
Qed.

Lemma textContent_all_silent (l : list node) :
  (forall n, In n l -> textContent n = "") ->
  String.concat "" (map textContent l) = "".
Proof.
  intros H. rewrite <- (app_nil_r l). apply textContent_silent. exact H.
Qed.

(** X6.  When the icons render no text, the text of the rendered button is
    the [text] prop, for every string. *)
Theorem Button_visible_text (env : Env) (s : string) :
  (forall c q n, In n (icon_dom env c q) -> textContent n = "") ->
  map textContent (to_dom env (Button env [("text", VStr s)])) = [s].
Proof.
  intros H.
  assert (E : to_dom env (Button env [("text", VStr s)]) =
              [Element "button" [("class", styles_container env)]
                 (icon_dom env "CaretLeft" [("size", VNum 32)] ++
                  Element "span" [("class", styles_text env)]
                    (to_dom env (EValue (VStr s))) ::
                  icon_dom env "CaretRight" [("size", VNum 32)])]).
  { cbn. rewrite !app_nil_r. reflexivity. }
  rewrite E. cbn [map textContent]. f_equal.
  rewrite textContent_silent by (intros n Hn; eapply H; exact Hn).
  cbn [map]. rewrite concat_empty_cons.
  rewrite textContent_all_silent by (intros n Hn; eapply H; exact Hn).
  rewrite append_empty_r.
  destruct s; reflexivity.
Qed.

Lemma Button_visible_text_witness :
  (forall c q n, In n (icon_dom env_ok c q) -> textContent n = "")
  /\ map textContent (to_dom env_ok (Button env_ok [("text", VStr "<b>Click</b>")]))
     = ["<b>Click</b>"].
Proof.
  assert (H : forall c q n, In n (icon_dom env_ok c q) -> textContent n = "").
  { intros c q n [<- | []]. reflexivity. }
  split; [exact H |].
  exact (Button_visible_text env_ok "<b>Click</b>" H).
Defined.

(** ** The DEBUG flag *)

(** X7.  [DEBUG] is on exactly when [DJANGO_DEBUG] is not set or is the
    string "True": a variable that is set switches it on only with that exact
    value, so "False", "true", "1" and the empty string all switch it off. *)
Theorem DEBUG_flag (e : environ) :
  (DEBUG e = true <->
   e "DJANGO_DEBUG" = None \/ e "DJANGO_DEBUG" = Some "True")
  /\ (forall v, e "DJANGO_DEBUG" = Some v -> v <> "True" -> DEBUG e = false)
  /\ (forall v, DEBUG (environ_with "DJANGO_DEBUG" v) = String.eqb v "True").
Proof.
  unfold DEBUG, os_getenv. split; [| split].
  - destruct (e "DJANGO_DEBUG") as [v |].
    + rewrite String.eqb_eq. split.
      * intros ->. right. reflexivity.
      * intros [H | H]; [discriminate | congruence].
    + split; [left |]; reflexivity.
  - intros v Hv Hne. rewrite Hv. apply String.eqb_neq. exact Hne.
  - intros v. reflexivity.
Qed.

(** ** What the missing-anchor error tells *)

Lemma first_match_None (f : node -> option handle) (l : list node) :
  forall i, first_match f i l = None -> forall c, In c l -> f c = None.
Proof.
  induction l as [| c l IH]; intros i H d Hd; [destruct Hd |].
  cbn [first_match] in H. destruct (f c) eqn:Hc; [discriminate |].
  destruct Hd as [<- | Hd]; [exact Hc | eapply IH; eassumption].
Qed.

(** A lookup that finds nothing means that no node of the tree carries the
    id. *)
Lemma getElementById_complete (id : string) (n : node) :
  getElementById id n = None ->
  forall q m, node_at q n = Some m -> has_id id m = false.
Proof.
  induction n as [s | t a ch IH] using node_induction; intros H q m Hq.
  - destruct q; cbn in Hq; [| discriminate]. inversion Hq; subst. reflexivity.
  - cbn [getElementById] in H.
    destruct (has_id id (Element t a ch)) eqn:Hid; [discriminate |].
    destruct q as [| i q]; cbn [node_at] in Hq.
    + inversion Hq; subst. exact Hid.
    + destruct (nth_error ch i) as [c |] eqn:Hc; [| discriminate].
      rewrite Forall_forall in IH.
      pose proof (nth_error_In _ _ Hc) as Hin.
      apply (IH c Hin (first_match_None _ _ _ H c Hin) q m Hq).
Qed.

(** X8.  The error "DOMContent not loaded :(" is logged only on a page on
    which no node at all carries the id [react-root]: whenever some element
    of the document has the id, wherever it sits, the handler finds it and
    goes on to create the root. *)
Theorem missing_anchor_error_is_exact (env : Env) (w : World) :
  In "DOMContent not loaded :(" (handler_logs env (doc w)) ->
  console (mount env w) = console w ++ ["DOMContent not loaded :("]
  /\ (forall q n, node_at q (doc w) = Some n -> has_id "react-root" n = false).
Proof.
  intros H.
  assert (Hp : getElementById "react-root" (doc w) = None).
  { rewrite handler_logs_cases in H.
    destruct (getElementById "react-root" (doc w)) as [p |]; [| reflexivity].
    destruct (root_created env p); cbn in H.
    - destruct H.
    - destruct H as [H | []]. discriminate. }
  split.
  - rewrite mount_unfold, handler_run. cbn [doc record]. rewrite Hp. reflexivity.
  - apply getElementById_complete. exact Hp.
Qed.

Lemma missing_anchor_error_is_exact_witness :
  In "DOMContent not loaded :(" (handler_logs env_ok (doc (fresh page_without_anchor)))
  /\ has_id "react-root" (Element "h1" [] [Text "Hello from django"]) = false.
Proof.
  assert (H : In "DOMContent not loaded :("
                (handler_logs env_ok (doc (fresh page_without_anchor))))
    by (left; reflexivity).
  split; [exact H |].
  exact (proj2 (missing_anchor_error_is_exact env_ok (fresh page_without_anchor) H)
           [1; 0]%nat _ eq_refl).
Defined.
